(** * DFM (Deep Feature Modeling): the Lightning module [Dfm]

    A shallow embedding of [anomalib/models/image/dfm/lightning_model.py].

    The class [Dfm] is glue between a training framework and three groups of
    collaborators: the torch primitives ([torch.vstack], [Tensor.squeeze]),
    the numeric model [DFMModel] of [torch_model.py], and the data classes of
    anomalib ([Batch], the prediction tuple).  None of the collaborators is
    part of the file, so they enter the development as an interface
    ([Collaborators]); the methods of [Dfm] are written in a small monad that
    threads the instance, propagates Python exceptions and records every call
    that leaves the class. *)

From Stdlib Require Import ZArith Floats.
From stdpp Require Import base strings list gmap.

Set Default Proof Using "Type".

(** ** Python results *)

(** A call either returns a value or raises an exception. *)
Inductive result (E A : Type) : Type :=
  | Ok (a : A)
  | Err (e : E).
Arguments Ok {E A} a.
Arguments Err {E A} e.

(** ** Declarations imported by the module *)

(** Modelled from the spec: [anomalib.LearningType], an enumeration declared
    outside the file.  The spec calls the model one-class; [ONE_CLASS] is the
    member the code names, the two others are the library's remaining
    learning regimes. *)
Inductive LearningType : Set :=
  | ONE_CLASS
  | ZERO_SHOT
  | FEW_SHOT.

(** Python values stored in the trainer-argument dictionary
    ([dict[str, Any]]); the code only stores integers. *)
Inductive PyAny : Set :=
  | PyInt (n : Z)
  | PyStr (s : string).

(** Keyword arguments of the constructor [DFMModel(...)], as [Dfm.__init__]
    passes them. *)
Record DFMModelKwargs : Set := mkDFMModelKwargs {
  kw_backbone : string;
  kw_pre_trained : bool;
  kw_layer : string;
  kw_pooling_kernel_size : Z;
  kw_n_comps : float;
  kw_score_type : string;
}.

(** ** The collaborators *)

(** Everything [Dfm] calls but does not define.

    - [torch_vstack] and [squeeze] are the torch primitives; stacking can
      raise, squeezing cannot.
    - Modelled from the spec: [DFMModel] (file [torch_model.py]).  The spec
      describes it as forward-pass feature extraction delegated to a frozen
      pretrained backbone ([get_features]), a fit routine on the stacked
      embeddings ([DFMModel_fit], which changes the model and whose return
      value [Dfm.fit] discards) and a scoring routine through the fitted
      transform ([DFMModel_forward]).  The two forward passes read the model;
      fitting returns the model it leaves behind, also when it raises.
    - [AnomalyModule_init] stands for [super().__init__]; the value it yields
      is the inherited part of the instance.
    - [image], [update] and [asdict] are the accessors of [Batch] and of the
      prediction tuple; [update] receives the changes as keyword arguments. *)
Class Collaborators : Type := {
  Exn : Type;
  Tensor : Type;
  Value : Type;
  Batch : Type;
  InferenceBatch : Type;
  PostProcessor : Type;
  Evaluator : Type;
  Optimizer : Type;
  AnomalyModule : Type;
  DFMModel : Type;
  torch_vstack : list Tensor -> result Exn Tensor;
  squeeze : Tensor -> Tensor;
  image : Batch -> Tensor;
  update : Batch -> gmap string Value -> result Exn Batch;
  asdict : InferenceBatch -> gmap string Value;
  AnomalyModule_init :
    option PostProcessor -> Evaluator + bool -> result Exn AnomalyModule;
  DFMModel_init : DFMModelKwargs -> result Exn DFMModel;
  get_features : DFMModel -> Tensor -> result Exn Tensor;
  DFMModel_fit : DFMModel -> Tensor -> result Exn unit * DFMModel;
  DFMModel_forward : DFMModel -> Tensor -> result Exn InferenceBatch;
}.

Section Dfm.
Context `{C : Collaborators}.

(** ** Calls that leave the class *)

(** One constructor per call site of the file, with the arguments of the
    call.  Conversions that neither raise nor have an effect
    ([Tensor.squeeze], [_asdict], [list.append], attribute reads) are
    applied in place and leave no entry. *)
Inductive Call : Type :=
  | super_init_call (post_processor : option PostProcessor)
                    (evaluator : Evaluator + bool)
  | DFMModel_call (kwargs : DFMModelKwargs)
  | get_features_call (img : Tensor)
  | logger_info (msg : string)
  | vstack_call (tensors : list Tensor)
  | model_fit_call (dataset : Tensor)
  | forward_call (img : Tensor)
  | update_call (batch : Batch) (changes : gmap string Value).

(** ** The monad of method bodies *)

(** Running a method from a state [S] yields the calls it made, in order,
    the state it leaves and how it ended.  An exception keeps the state
    reached when it was raised. *)
Record Run (S A : Type) : Type := mkRun {
  calls : list Call;
  final : S;
  outcome : result Exn A;
}.
Arguments mkRun {S A} calls final outcome.
Arguments calls {S A} r.
Arguments final {S A} r.
Arguments outcome {S A} r.

Definition M (S A : Type) : Type := S -> Run S A.

#[export] Instance M_ret {S} : MRet (M S) :=
  fun A (a : A) (s : S) => mkRun [] s (Ok a).

#[export] Instance M_bind {S} : MBind (M S) :=
  fun A B (k : A -> M S B) (m : M S A) (s : S) =>
    let r := m s in
    match outcome r with
    | Ok a =>
        let r' := k a (final r) in
        mkRun (calls r ++ calls r') (final r') (outcome r')
    | Err e => mkRun (calls r) (final r) (Err e)
    end.

(** A call to a collaborator that does not touch the instance. *)
Definition call {S A} (c : Call) (r : result Exn A) : M S A :=
  fun s => mkRun [c] s r.

(** Reading an attribute of the instance. *)
Definition gets {S A} (f : S -> A) : M S A :=
  fun s => mkRun [] s (Ok (f s)).

(** Changing the instance. *)
Definition modify {S} (f : S -> S) : M S unit :=
  fun s => mkRun [] (f s) (Ok tt).

(** ** The instance *)

(** The attributes of a constructed [Dfm]: what the base classes set up,
    and the three attributes [__init__] assigns. *)
Record Dfm : Type := mkDfm {
  base : AnomalyModule;
  model : DFMModel;
  embeddings : list Tensor;
  score_type : string;
}.

Definition set_model (m : DFMModel) (self : Dfm) : Dfm :=
  mkDfm (base self) m (embeddings self) (score_type self).

Definition with_embeddings (es : list Tensor) (self : Dfm) : Dfm :=
  mkDfm (base self) (model self) es (score_type self).

(** [self.embeddings.append(e)] *)
Definition embeddings_append (e : Tensor) (self : Dfm) : Dfm :=
  mkDfm (base self) (model self) (embeddings self ++ [e]) (score_type self).

(** [self.model.fit(dataset)]: the call changes the model held by the
    instance and returns nothing. *)
Definition model_fit (dataset : Tensor) : M Dfm unit :=
  fun self =>
    let '(r, m) := DFMModel_fit (model self) dataset in
    mkRun [model_fit_call dataset] (set_model m self) r.

(** ** [Dfm.__init__] *)

(** The arguments of the constructor; [None] is an argument the caller
    leaves out, so that the default of the signature applies. *)
Record DfmArgs : Type := mkDfmArgs {
  arg_backbone : option string;
  arg_layer : option string;
  arg_pre_trained : option bool;
  arg_pooling_kernel_size : option Z;
  arg_pca_level : option float;
  arg_score_type : option string;
  arg_post_processor : option (option PostProcessor);
  arg_evaluator : option (Evaluator + bool);
}.

Definition no_args : DfmArgs :=
  mkDfmArgs None None None None None None None None.

(** The literal [0.97] of the signature is the binary64 number closest to
    it. *)
Definition pca_level_default : float := 0x1.f0a3d70a3d70ap-1%float.

Definition Dfm_init (args : DfmArgs) : M unit Dfm :=
  let backbone := default "resnet50" (arg_backbone args) in
  let layer := default "layer3" (arg_layer args) in
  let pre_trained := default true (arg_pre_trained args) in
  let pooling_kernel_size := default 4%Z (arg_pooling_kernel_size args) in
  let pca_level := default pca_level_default (arg_pca_level args) in
  let score_type := default "fre" (arg_score_type args) in
  let post_processor := default None (arg_post_processor args) in
  let evaluator := default (inr true) (arg_evaluator args) in
  inherited ← call (super_init_call post_processor evaluator)
                   (AnomalyModule_init post_processor evaluator);
  let kwargs :=
    mkDFMModelKwargs backbone pre_trained layer pooling_kernel_size
                     pca_level score_type in
  model ← call (DFMModel_call kwargs) (DFMModel_init kwargs);
  mret (mkDfm inherited model [] score_type).

(** ** The hooks *)

(** [configure_optimizers] is a static method: it does not see the
    instance.  The framework accepts optimizers or [None]. *)
Definition configure_optimizers {S} : M S (option Optimizer) :=
  mret None.

(** [training_step].  The hook may hand a tensor back to the trainer; the
    body ends without a [return]. *)
Definition training_step (batch : Batch) : M Dfm (option Tensor) :=
  m ← gets model;
  features ← call (get_features_call (image batch))
                  (get_features m (image batch));
  let embedding := squeeze features in
  modify (embeddings_append embedding);;
  mret None.

Definition fit : M Dfm unit :=
  call (logger_info "Aggregating the embedding extracted from the training set.")
       (Ok tt);;
  collected ← gets embeddings;
  stacked ← call (vstack_call collected) (torch_vstack collected);
  call (logger_info "Fitting a PCA and a Gaussian model to dataset.") (Ok tt);;
  model_fit stacked.

Definition validation_step (batch : Batch) : M Dfm Batch :=
  m ← gets model;
  predictions ← call (forward_call (image batch))
                     (DFMModel_forward m (image batch));
  let changes := asdict predictions in
  call (update_call batch changes) (update batch changes).

(** ** The properties *)

Definition trainer_arguments (self : Dfm) : gmap string PyAny :=
  {[ "gradient_clip_val" := PyInt 0;
     "max_epochs" := PyInt 1;
     "num_sanity_val_steps" := PyInt 0 ]}.

Definition learning_type (self : Dfm) : LearningType := ONE_CLASS.

(** ** The training loop *)

(** Modelled from the spec: the training framework owns all looping and
    calls into the hooks; during the single epoch it calls [training_step]
    once per batch, in the order of the batches. *)
Fixpoint training_steps (batches : list Batch) : M Dfm unit :=
  match batches with
  | [] => mret tt
  | batch :: rest => training_step batch;; training_steps rest
  end.

End Dfm.

Arguments mkRun {C S A} calls final outcome.
Arguments calls {C S A} r.
Arguments final {C S A} r.
Arguments outcome {C S A} r.

(** ** [torch.vstack] and the empty list *)

(** [torch.vstack] is PyTorch's code, not the repository's, and [Dfm.fit]
    hands it [self.embeddings] as it is.  Modelled from PyTorch: before it
    stacks anything, [torch.vstack] checks its argument and refuses an empty
    list with a [RuntimeError] ("vstack expects a non-empty TensorList").
    [checked_vstack] puts that check, with the error it raises, in front of
    the stacking of given collaborators. *)
Definition checked_vstack {C : Collaborators} (empty_list : Exn)
    (tensors : list Tensor) : result Exn Tensor :=
  match tensors with
  | [] => Err empty_list
  | _ :: _ => torch_vstack tensors
  end.

(** The collaborators [C] with PyTorch's check in their [torch.vstack];
    nothing else is changed. *)
Definition with_checked_vstack (C : Collaborators) (empty_list : @Exn C)
  : Collaborators := {|
  Exn := @Exn C;
  Tensor := @Tensor C;
  Value := @Value C;
  Batch := @Batch C;
  InferenceBatch := @InferenceBatch C;
  PostProcessor := @PostProcessor C;
  Evaluator := @Evaluator C;
  Optimizer := @Optimizer C;
  AnomalyModule := @AnomalyModule C;
  DFMModel := @DFMModel C;
  torch_vstack := @checked_vstack C empty_list;
  squeeze := @squeeze C;
  image := @image C;
  update := @update C;
  asdict := @asdict C;
  AnomalyModule_init := @AnomalyModule_init C;
  DFMModel_init := @DFMModel_init C;
  get_features := @get_features C;
  DFMModel_fit := @DFMModel_fit C;
  DFMModel_forward := @DFMModel_forward C;
|}.

(** ** A reference implementation of the collaborators *)

(** Small executable stand-ins, used to run the methods on concrete inputs:
    tensors are a shape with integer entries in row-major order, stacking
    and squeezing follow the torch documentation on shapes, and the model
    remembers the data it was fitted on. *)
Module Reference.

Record tensor : Set := mkTensor {
  shape : list nat;
  entries : list Z;
}.

(** [torch.atleast_2d] *)
Definition atleast_2d (t : tensor) : tensor :=
  match shape t with
  | [] => mkTensor [1; 1] (entries t)
  | [n] => mkTensor [1; n] (entries t)
  | _ => t
  end.

Definition rows (t : tensor) : nat := hd 0 (shape t).
Definition row_shape (t : tensor) : list nat := tl (shape t).

(** [torch.vstack]: every tensor is made two-dimensional at least, then the
    tensors are concatenated along the first dimension; an empty list and
    rows of different shapes are refused. *)
Definition vstack (ts : list tensor) : result string tensor :=
  match atleast_2d <$> ts with
  | [] => Err "vstack expects a non-empty TensorList"
  | t :: rest =>
      if forallb (fun u => bool_decide (row_shape u = row_shape t)) rest
      then Ok (mkTensor (sum_list (rows <$> t :: rest) :: row_shape t)
                        (concat (entries <$> t :: rest)))
      else Err "Sizes of tensors must match except in dimension 0"
  end.

(** [Tensor.squeeze]: the dimensions of size one are dropped. *)
Definition tensor_squeeze (t : tensor) : tensor :=
  mkTensor (filter (fun n => n ≠ 1) (shape t)) (entries t).

Record batch : Set := mkBatch {
  batch_image : tensor;
  batch_fields : gmap string tensor;
}.

Definition batch_update (b : batch) (changes : gmap string tensor)
  : result string batch :=
  Ok (mkBatch (default (batch_image b) (changes !! "image"))
              (changes ∪ batch_fields b)).

Record prediction : Set := mkPrediction {
  pred_score : tensor;
  anomaly_map : tensor;
}.

Definition prediction_asdict (p : prediction) : gmap string tensor :=
  {[ "pred_score" := pred_score p; "anomaly_map" := anomaly_map p ]}.

Record dfm_model : Set := mkModel {
  model_kwargs : DFMModelKwargs;
  fitted_on : option tensor;
}.

(** Features are the image flattened to one row. *)
Definition model_get_features (m : dfm_model) (img : tensor)
  : result string tensor :=
  Ok (mkTensor [1; length (entries img)] (entries img)).

Definition model_fit_on (m : dfm_model) (dataset : tensor)
  : result string unit * dfm_model :=
  (Ok tt, mkModel (model_kwargs m) (Some dataset)).

(** The score of an image is its distance to the first fitted entry. *)
Definition model_forward (m : dfm_model) (img : tensor)
  : result string prediction :=
  match fitted_on m with
  | None => Err "the model is not fitted"
  | Some d =>
      let centre := hd 0%Z (entries d) in
      let map := mkTensor (shape img) ((fun x => Z.abs (x - centre)) <$> entries img) in
      Ok (mkPrediction (mkTensor [] [foldr Z.max 0%Z (entries map)]) map)
  end.

#[export] Instance collaborators : Collaborators := {|
  Exn := string;
  Tensor := tensor;
  Value := tensor;
  Batch := batch;
  InferenceBatch := prediction;
  PostProcessor := unit;
  Evaluator := unit;
  Optimizer := unit;
  AnomalyModule := option unit * (unit + bool);
  DFMModel := dfm_model;
  torch_vstack := vstack;
  squeeze := tensor_squeeze;
  image := batch_image;
  update := batch_update;
  asdict := prediction_asdict;
  AnomalyModule_init := fun post_processor evaluator => Ok (post_processor, evaluator);
  DFMModel_init := fun kwargs => Ok (mkModel kwargs None);
  get_features := model_get_features;
  DFMModel_fit := model_fit_on;
  DFMModel_forward := model_forward;
|}.

(** Two one-row images and the instance built with the default arguments. *)
Definition image1 : tensor := mkTensor [1; 3] [1; 2; 3]%Z.
Definition image2 : tensor := mkTensor [1; 3] [4; 5; 6]%Z.
Definition batch1 : batch := mkBatch image1 ∅.
Definition batch2 : batch := mkBatch image2 ∅.

Definition fresh : Dfm :=
  mkDfm (None, inr true)
        (mkModel (mkDFMModelKwargs "resnet50" true "layer3" 4 pca_level_default "fre") None)
        [] "fre".

End Reference.
(** * Properties of the methods *)

Section Properties.
Context `{C : Collaborators}.

Implicit Types (self : Dfm) (batch : Batch).

(** ** What a run of each method looks like *)

Lemma bind_run {S A B} (m : M S A) (k : A -> M S B) (s : S) :
  (m ≫= k) s =
  match outcome (m s) with
  | Ok a => mkRun (calls (m s) ++ calls (k a (final (m s))))
                  (final (k a (final (m s)))) (outcome (k a (final (m s))))
  | Err e => mkRun (calls (m s)) (final (m s)) (Err e)
  end.
Proof. reflexivity. Qed.

Ltac run_method :=
  unfold mbind, M_bind, mret, M_ret, call, gets, modify; cbn.

Lemma training_step_run batch self :
  training_step batch self =
  match get_features (model self) (image batch) with
  | Ok features =>
      mkRun [get_features_call (image batch)]
            (embeddings_append (squeeze features) self) (Ok None)
  | Err e => mkRun [get_features_call (image batch)] self (Err e)
  end.
Proof.
  unfold training_step. run_method.
  destruct (get_features (model self) (image batch)); reflexivity.
Qed.

Lemma fit_run self :
  fit self =
  match torch_vstack (embeddings self) with
  | Ok stacked =>
      mkRun [logger_info "Aggregating the embedding extracted from the training set."; vstack_call (embeddings self);
             logger_info "Fitting a PCA and a Gaussian model to dataset."; model_fit_call stacked]
            (set_model (DFMModel_fit (model self) stacked).2 self)
            (DFMModel_fit (model self) stacked).1
  | Err e =>
      mkRun [logger_info "Aggregating the embedding extracted from the training set."; vstack_call (embeddings self)]
            self (Err e)
  end.
Proof.
  unfold fit, model_fit. run_method.
  destruct (torch_vstack (embeddings self)) as [stacked|e]; cbn; [|reflexivity].
  destruct (DFMModel_fit (model self) stacked) as [r m]. reflexivity.
Qed.

Lemma validation_step_run batch self :
  validation_step batch self =
  match DFMModel_forward (model self) (image batch) with
  | Ok predictions =>
      mkRun [forward_call (image batch);
             update_call batch (asdict predictions)]
            self (update batch (asdict predictions))
  | Err e => mkRun [forward_call (image batch)] self (Err e)
  end.
Proof.
  unfold validation_step. run_method.
  destruct (DFMModel_forward (model self) (image batch)); reflexivity.
Qed.

Lemma training_steps_run batches : ∀ self features,
  Forall2 (fun b f => get_features (model self) (image b) = Ok f)
          batches features →
  training_steps batches self =
  mkRun (get_features_call ∘ image <$> batches)
        (with_embeddings (embeddings self ++ (squeeze <$> features)) self)
        (Ok tt).
Proof.
  induction batches as [|batch rest IH]; intros self features Hall.
  - apply Forall2_nil_inv_l in Hall as ->. cbn.
    rewrite app_nil_r. destruct self; reflexivity.
  - apply Forall2_cons_inv_l in Hall as (f & fs & Hf & Hfs & ->).
    cbn [training_steps]. rewrite bind_run, training_step_run, Hf.
    cbn [outcome final calls].
    rewrite (IH (embeddings_append (squeeze f) self) fs) by exact Hfs.
    cbn. unfold with_embeddings. cbn. rewrite <- app_assoc. reflexivity.
Qed.

Lemma Dfm_init_run args :
  let score := default "fre" (arg_score_type args) in
  let post_processor := default None (arg_post_processor args) in
  let evaluator := default (inr true) (arg_evaluator args) in
  let kwargs :=
    mkDFMModelKwargs (default "resnet50" (arg_backbone args))
                     (default true (arg_pre_trained args))
                     (default "layer3" (arg_layer args))
                     (default 4%Z (arg_pooling_kernel_size args))
                     (default pca_level_default (arg_pca_level args))
                     score in
  Dfm_init args tt =
  match AnomalyModule_init post_processor evaluator with
  | Ok inherited =>
      match DFMModel_init kwargs with
      | Ok m =>
          mkRun [super_init_call post_processor evaluator; DFMModel_call kwargs]
                tt (Ok (mkDfm inherited m [] score))
      | Err e =>
          mkRun [super_init_call post_processor evaluator; DFMModel_call kwargs]
                tt (Err e)
      end
  | Err e => mkRun [super_init_call post_processor evaluator] tt (Err e)
  end.
Proof.
  unfold Dfm_init. run_method.
  destruct (AnomalyModule_init _ _); cbn; [|reflexivity].
  destruct (DFMModel_init _); reflexivity.
Qed.

(** ** The claims *)

(** C1. After the training steps on [batches], [fit] performs two
    collaborator steps in order: [torch.vstack] on the collected embeddings,
    which are the squeezed features in the order of the training steps
    (behind those already present), then [self.model.fit] on the stacked
    tensor.  Around them it only logs; the embeddings themselves are left as
    they were, and a failure of the stacking ends [fit] before the model is
    touched. *)
Theorem fit_stacks_then_fits self batches features :
  Forall2 (fun b f => get_features (model self) (image b) = Ok f)
          batches features →
  let trained := final (training_steps batches self) in
  let collected := embeddings self ++ (squeeze <$> features) in
  embeddings trained = collected ∧
  model trained = model self ∧
  match torch_vstack collected with
  | Ok stacked =>
      let fitted := DFMModel_fit (model self) stacked in
      fit trained =
      mkRun [logger_info "Aggregating the embedding extracted from the training set."; vstack_call collected;
             logger_info "Fitting a PCA and a Gaussian model to dataset."; model_fit_call stacked]
            (set_model fitted.2 trained) fitted.1 ∧
      embeddings (final (fit trained)) = collected
  | Err e =>
      fit trained =
      mkRun [logger_info "Aggregating the embedding extracted from the training set."; vstack_call collected] trained (Err e)
  end.
Proof.
  intros Hall trained collected.
  assert (embeddings trained = collected ∧ model trained = model self)
    as [Hemb Hmod].
  { subst trained. rewrite (training_steps_run _ _ _ Hall). split; reflexivity. }
  split; [exact Hemb|]. split; [exact Hmod|].
  pose proof (fit_run trained) as Hfit. rewrite Hemb, Hmod in Hfit.
  destruct (torch_vstack collected) as [stacked|e]; [|exact Hfit].
  cbn zeta. split; [exact Hfit|]. rewrite Hfit. exact Hemb.
Qed.

(** C2. [training_step] makes one call, [self.model.get_features] on the
    image of the batch; when that returns, the squeezed features are the one
    element appended to [self.embeddings], and when it raises, nothing is
    appended.  Nothing else is called or computed. *)
Theorem training_step_delegates batch self :
  let r := training_step batch self in
  calls r = [get_features_call (image batch)] ∧
  model (final r) = model self ∧
  match get_features (model self) (image batch) with
  | Ok features =>
      embeddings (final r) = embeddings self ++ [squeeze features] ∧
      length (embeddings (final r)) = S (length (embeddings self)) ∧
      outcome r = Ok None
  | Err e => embeddings (final r) = embeddings self ∧ outcome r = Err e
  end.
Proof.
  cbn zeta. rewrite training_step_run.
  destruct (get_features (model self) (image batch)) as [features|e]; cbn.
  - rewrite length_app. cbn. repeat split; lia.
  - repeat split.
Qed.

(** C3. [validation_step] passes the image of the batch through the model
    and, when the model answers, returns what [update] makes of the input
    batch with every field of the prediction as a change; the instance is
    not changed.  When the model raises, so does the step, and the batch is
    not updated. *)
Theorem validation_step_updates_batch batch self :
  let r := validation_step batch self in
  final r = self ∧
  match DFMModel_forward (model self) (image batch) with
  | Ok predictions =>
      calls r = [forward_call (image batch);
                 update_call batch (asdict predictions)] ∧
      outcome r = update batch (asdict predictions)
  | Err e => calls r = [forward_call (image batch)] ∧ outcome r = Err e
  end.
Proof.
  cbn zeta. rewrite validation_step_run.
  destruct (DFMModel_forward (model self) (image batch)); repeat split.
Qed.

(** C4. The constructor hands its [score_type] argument (["fre"] when left
    out) unchanged to the one [DFMModel] it builds and stores it as
    [self.score_type].  It rejects no string itself: whatever the string,
    the constructor returns the instance as soon as [super().__init__] and
    [DFMModel(...)] return on the arguments it passes them, and when it
    raises, the error is the one that [super().__init__] raised on these
    arguments, or the one that [DFMModel(...)] raised on them after
    [super().__init__] had returned. *)
Theorem init_forwards_score_type args :
  let s := default "fre" (arg_score_type args) in
  let post_processor := default None (arg_post_processor args) in
  let evaluator := default (inr true) (arg_evaluator args) in
  let kwargs :=
    mkDFMModelKwargs (default "resnet50" (arg_backbone args))
                     (default true (arg_pre_trained args))
                     (default "layer3" (arg_layer args))
                     (default 4%Z (arg_pooling_kernel_size args))
                     (default pca_level_default (arg_pca_level args))
                     s in
  let r := Dfm_init args tt in
  (∀ kw, DFMModel_call kw ∈ calls r → kw = kwargs ∧ kw_score_type kw = s) ∧
  (∀ inherited m,
     AnomalyModule_init post_processor evaluator = Ok inherited →
     DFMModel_init kwargs = Ok m →
     r = mkRun [super_init_call post_processor evaluator; DFMModel_call kwargs]
               tt (Ok (mkDfm inherited m [] s))) ∧
  (∀ self, outcome r = Ok self →
     score_type self = s ∧ embeddings self = [] ∧
     calls r = [super_init_call post_processor evaluator; DFMModel_call kwargs] ∧
     AnomalyModule_init post_processor evaluator = Ok (base self) ∧
     DFMModel_init kwargs = Ok (model self)) ∧
  (∀ e, outcome r = Err e →
     (AnomalyModule_init post_processor evaluator = Err e ∧
      calls r = [super_init_call post_processor evaluator]) ∨
     ((∃ inherited, AnomalyModule_init post_processor evaluator = Ok inherited) ∧
      DFMModel_init kwargs = Err e ∧
      calls r = [super_init_call post_processor evaluator; DFMModel_call kwargs])).
Proof.
  cbn zeta. rewrite Dfm_init_run. cbn zeta.
  destruct (AnomalyModule_init _ _) as [inherited|e0] eqn:Hsuper.
  - destruct (DFMModel_init _) as [m|e0] eqn:Hmodel; cbn.
    + split; [|split; [|split]].
      * intros kw Hin. apply elem_of_cons in Hin as [Hin|Hin]; [discriminate|].
        apply list_elem_of_singleton in Hin. injection Hin as ->.
        split; reflexivity.
      * intros inherited' m' [= <-] [= <-]. reflexivity.
      * intros self [= <-]. cbn. repeat split.
      * intros e [=].
    + split; [|split; [|split]].
      * intros kw Hin. apply elem_of_cons in Hin as [Hin|Hin]; [discriminate|].
        apply list_elem_of_singleton in Hin. injection Hin as ->.
        split; reflexivity.
      * intros inherited' m' _ [=].
      * intros self [=].
      * intros e [= <-]. right. split; [eauto|]. split; reflexivity.
  - cbn. split; [|split; [|split]].
    + intros kw Hin. apply list_elem_of_singleton in Hin. discriminate.
    + intros inherited m [=].
    + intros self [=].
    + intros e [= <-]. left. split; reflexivity.
Qed.

(** C5. [configure_optimizers] returns [None], whatever the instance: it
    makes no call, raises nothing and changes nothing. *)
Theorem configure_optimizers_none self :
  outcome (configure_optimizers self) = Ok None ∧
  calls (configure_optimizers self) = [] ∧
  final (configure_optimizers self) = self.
Proof. unfold configure_optimizers. run_method. repeat split. Qed.

(** C6. [learning_type] is [LearningType.ONE_CLASS] for every instance. *)
Theorem learning_type_one_class self :
  learning_type self = ONE_CLASS ∧
  learning_type self ≠ ZERO_SHOT ∧ learning_type self ≠ FEW_SHOT.
Proof. repeat split; discriminate. Qed.

(** C9. [training_step] returns [None] and only appends to
    [self.embeddings]: the model, [self.score_type] and the inherited
    attributes are the same after the call, whether it returns or raises;
    when it returns, the instance differs from the old one by one tensor at
    the end of the embeddings, and when it raises, it does not differ. *)
Theorem training_step_frame batch self :
  let r := training_step batch self in
  model (final r) = model self ∧
  score_type (final r) = score_type self ∧
  base (final r) = base self ∧
  match outcome r with
  | Ok returned =>
      returned = None ∧ ∃ embedding, final r = embeddings_append embedding self
  | Err _ => final r = self
  end.
Proof.
  cbn zeta. rewrite training_step_run.
  destruct (get_features (model self) (image batch)) as [features|e]; cbn.
  - repeat split. eexists. reflexivity.
  - repeat split.
Qed.

(** C10. [trainer_arguments] is, for every instance, the dictionary
    [{"gradient_clip_val": 0, "max_epochs": 1, "num_sanity_val_steps": 0}]:
    it has these three keys, bound to 0, 1 and 0, and no other. *)
Theorem trainer_arguments_exact self :
  trainer_arguments self =
    {[ "gradient_clip_val" := PyInt 0; "max_epochs" := PyInt 1;
       "num_sanity_val_steps" := PyInt 0 ]} ∧
  size (trainer_arguments self) = 3 ∧
  ∀ key : string,
    trainer_arguments self !! key =
    if decide (key = "gradient_clip_val") then Some (PyInt 0)
    else if decide (key = "max_epochs") then Some (PyInt 1)
    else if decide (key = "num_sanity_val_steps") then Some (PyInt 0)
    else None.
Proof.
  split; [reflexivity|]. split; [reflexivity|].
  intros key. unfold trainer_arguments.
  repeat case_decide; subst; simplify_map_eq; reflexivity.
Qed.

End Properties.

(** ** [fit] without embeddings *)

(** C8. With the empty-list check of [torch.vstack], raising [e], [fit] on
    an instance without embeddings raises [e] from the stacking step, after
    the first log line and before the second, with the instance as it was;
    this is so for the instance the constructor returns.  [self.model.fit] is
    called, and [fit] returns, only when at least one embedding has been
    collected. *)
Theorem fit_requires_embeddings (C : Collaborators) (e : @Exn C)
    (self : @Dfm (with_checked_vstack C e)) :
  (embeddings self = [] →
     fit self =
     mkRun (C := with_checked_vstack C e) [logger_info "Aggregating the embedding extracted from the training set.";
            vstack_call []] self (Err e)) ∧
  (∀ args, outcome (Dfm_init (C := with_checked_vstack C e) args tt) = Ok self →
     embeddings self = [] ∧
     outcome (fit self) = Err e ∧ final (fit self) = self ∧
     calls (fit self) =
       [logger_info "Aggregating the embedding extracted from the training set.";
        vstack_call []]) ∧
  (∀ dataset, model_fit_call dataset ∈ calls (fit self) → embeddings self ≠ []) ∧
  (model (final (fit self)) ≠ model self → embeddings self ≠ []) ∧
  (outcome (fit self) = Ok tt → embeddings self ≠ []).
Proof.
  assert (embeddings self = [] →
          fit self =
          mkRun (C := with_checked_vstack C e) [logger_info "Aggregating the embedding extracted from the training set.";
                 vstack_call []] self (Err e)) as Hempty.
  { intros Hemp. rewrite fit_run, Hemp. reflexivity. }
  split; [exact Hempty|]. split; [|split; [|split]].
  - intros args. rewrite Dfm_init_run. cbn zeta.
    destruct (AnomalyModule_init _ _); [|intros [=]].
    destruct (DFMModel_init _); intros [= <-].
    rewrite Hempty by reflexivity. repeat split.
  - intros dataset Hin Hemp. rewrite (Hempty Hemp) in Hin. cbn in Hin.
    apply elem_of_cons in Hin as [Hin|Hin]; [discriminate|].
    apply list_elem_of_singleton in Hin. discriminate.
  - intros Hmodel Hemp. rewrite (Hempty Hemp) in Hmodel. apply Hmodel. reflexivity.
  - intros Hok Hemp. rewrite (Hempty Hemp) in Hok. discriminate.
Qed.

(** * The methods on the reference implementation *)

Module Examples.
Import Reference.

(** The features the reference model extracts from the two images. *)
Definition features1 : tensor := mkTensor [1; 3] [1; 2; 3]%Z.
Definition features2 : tensor := mkTensor [1; 3] [4; 5; 6]%Z.

(** The instance after the training steps on the two batches. *)
Definition trained : Dfm :=
  with_embeddings [mkTensor [3] [1; 2; 3]%Z; mkTensor [3] [4; 5; 6]%Z] fresh.

Definition stacked : tensor := mkTensor [2; 3] [1; 2; 3; 4; 5; 6]%Z.

(** The instance after [fit] on the two embeddings. *)
Definition fitted : Dfm :=
  set_model (mkModel (model_kwargs (model fresh)) (Some stacked)) trained.

Example init_default_arguments :
  Dfm_init (C := collaborators) no_args tt =
  mkRun [super_init_call None (inr true);
         DFMModel_call (mkDFMModelKwargs "resnet50" true "layer3" 4
                                         pca_level_default "fre")]
        tt (Ok fresh).
Proof. reflexivity. Qed.

Example init_score_type_unchecked :
  outcome (Dfm_init (C := collaborators)
             (mkDfmArgs None None None None None (Some "neither") None None) tt)
  = Ok (mkDfm (base fresh)
              (mkModel (mkDFMModelKwargs "resnet50" true "layer3" 4
                                         pca_level_default "neither") None)
              [] "neither").
Proof. reflexivity. Qed.

Example training_step_first_batch :
  training_step (C := collaborators) batch1 fresh =
  mkRun [get_features_call image1]
        (with_embeddings [mkTensor [3] [1; 2; 3]%Z] fresh) (Ok None).
Proof. reflexivity. Qed.

Example training_steps_two_batches :
  training_steps (C := collaborators) [batch1; batch2] fresh =
  mkRun [get_features_call image1; get_features_call image2] trained (Ok tt).
Proof. reflexivity. Qed.

Example fit_without_embeddings :
  outcome (fit fresh) = Err "vstack expects a non-empty TensorList".
Proof. reflexivity. Qed.

Example validation_step_unfitted :
  validation_step (C := collaborators) batch2 trained =
  mkRun [forward_call image2] trained (Err "the model is not fitted").
Proof. reflexivity. Qed.

Example validation_step_fitted :
  ∃ scored : batch,
    outcome (validation_step (C := collaborators) batch2 fitted) = Ok scored ∧
    final (validation_step (C := collaborators) batch2 fitted) = fitted ∧
    batch_image scored = image2 ∧
    batch_fields scored !! "pred_score" = Some (mkTensor [] [5]%Z) ∧
    batch_fields scored !! "anomaly_map" = Some (mkTensor [1; 3] [3; 4; 5]%Z).
Proof. eexists. repeat split; vm_compute; reflexivity. Qed.

(** Two training steps, then [fit]: the rows of the fitted data are the two
    embeddings in the order of the steps. *)
Lemma fit_stacks_then_fits_example :
  Forall2 (fun b f => get_features (Collaborators := collaborators) (model fresh) (image b) = Ok f)
          [batch1; batch2] [features1; features2] ∧
  embeddings (final (training_steps (C := collaborators) [batch1; batch2] fresh))
    = embeddings trained ∧
  model (final (training_steps (C := collaborators) [batch1; batch2] fresh))
    = model fresh ∧
  fit (final (training_steps (C := collaborators) [batch1; batch2] fresh)) =
    mkRun [logger_info "Aggregating the embedding extracted from the training set.";
           vstack_call (embeddings trained);
           logger_info "Fitting a PCA and a Gaussian model to dataset.";
           model_fit_call stacked]
          (set_model (mkModel (model_kwargs (model fresh)) (Some stacked)) trained)
          (Ok tt) ∧
  embeddings (final (fit (final (training_steps (C := collaborators)
                                   [batch1; batch2] fresh))))
    = embeddings trained.
Proof.
  assert (Forall2 (fun b f => get_features (Collaborators := collaborators) (model fresh) (image b) = Ok f)
                  [batch1; batch2] [features1; features2]) as Hall.
  { repeat constructor. }
  split; [exact Hall|].
  exact (fit_stacks_then_fits fresh [batch1; batch2] [features1; features2] Hall).
Defined.

(** The reference collaborators with the empty-list check of
    [torch.vstack], and the instance their constructor returns. *)
Definition checked : Collaborators :=
  with_checked_vstack collaborators "vstack expects a non-empty TensorList".

Definition fresh_checked : Dfm (C := checked) :=
  mkDfm (C := checked) (base fresh) (model fresh) [] "fre".

(** [fit] right after construction. *)
Lemma fit_requires_embeddings_example :
  outcome (Dfm_init (C := checked) no_args tt) = Ok fresh_checked ∧
  embeddings fresh_checked = [] ∧
  outcome (fit fresh_checked) = Err "vstack expects a non-empty TensorList" ∧
  final (fit fresh_checked) = fresh_checked ∧
  calls (fit fresh_checked) =
    [logger_info "Aggregating the embedding extracted from the training set.";
     vstack_call []].
Proof.
  split; [reflexivity|].
  exact (proj1 (proj2 (fit_requires_embeddings
                         collaborators "vstack expects a non-empty TensorList"
                         fresh_checked))
               no_args eq_refl).
Defined.

End Examples.

(** * The hooks in sequence *)

Section Lifecycle.
Context `{C : Collaborators}.

Implicit Types (self : Dfm) (batch : Batch).

(** Modelled from the spec: the framework calls into the lifecycle hooks
    (training step, validation step, fit) in an order of its own and
    discards what the step hooks return. *)
Inductive Hook : Type :=
  | TrainingStep (batch : Batch)
  | Fit
  | ValidationStep (batch : Batch).

Definition run_hook (h : Hook) : M Dfm unit :=
  match h with
  | TrainingStep batch => training_step batch;; mret tt
  | Fit => fit
  | ValidationStep batch => validation_step batch;; mret tt
  end.

Fixpoint run_hooks (hooks : list Hook) : M Dfm unit :=
  match hooks with
  | [] => mret tt
  | h :: rest => run_hook h;; run_hooks rest
  end.

Fixpoint training_step_count (hooks : list Hook) : nat :=
  match hooks with
  | [] => 0
  | TrainingStep _ :: rest => S (training_step_count rest)
  | _ :: rest => training_step_count rest
  end.

(** What one hook can do to the instance. *)
Definition hook_effect (h : Hook) self (after : Dfm) : Prop :=
  score_type after = score_type self ∧
  base after = base self ∧
  (h ≠ Fit → model after = model self) ∧
  embeddings self `prefix_of` embeddings after ∧
  length (embeddings after)
    ≤ length (embeddings self) + training_step_count [h].

Lemma run_hook_effect h self : hook_effect h self (final (run_hook h self)).
Proof.
  unfold hook_effect. destruct h as [batch| |batch]; cbn [run_hook].
  - rewrite bind_run, training_step_run.
    destruct (get_features (model self) (image batch)); cbn;
      rewrite ?length_app; cbn; repeat split;
      first [lia | done | by apply prefix_app_r].
  - rewrite fit_run.
    destruct (torch_vstack (embeddings self)); cbn; repeat split;
      first [lia | done].
  - rewrite bind_run, validation_step_run.
    destruct (DFMModel_forward (model self) (image batch)) as [p|]; cbn;
      [destruct (update batch (asdict p)); cbn|]; repeat split;
      first [lia | done].
Qed.

Lemma training_steps_model batches : ∀ self,
  model (final (training_steps batches self)) = model self.
Proof.
  induction batches as [|batch rest IH]; intros self; [reflexivity|].
  cbn [training_steps]. rewrite bind_run, training_step_run.
  destruct (get_features (model self) (image batch)); cbn; [|reflexivity].
  rewrite IH. reflexivity.
Qed.

(** X5. Over any sequence of hooks, whether it runs to its end or stops at
    an exception: [self.score_type] and the inherited attributes stay as
    constructed, the embeddings only grow at their end, by at most one per
    training step, and the model is the same unless the sequence holds a
    [fit]. *)
Theorem lifecycle_invariants hooks : ∀ self,
  let after := final (run_hooks hooks self) in
  score_type after = score_type self ∧
  base after = base self ∧
  (Fit ∉ hooks → model after = model self) ∧
  embeddings self `prefix_of` embeddings after ∧
  length (embeddings after)
    ≤ length (embeddings self) + training_step_count hooks.
Proof.
  induction hooks as [|h rest IH]; intros self; cbn zeta.
  - cbn. repeat split; [done|lia].
  - cbn [run_hooks]. rewrite bind_run.
    destruct (run_hook_effect h self) as (Hs & Hb & Hm & Hp & Hl).
    assert (training_step_count (h :: rest)
            = training_step_count [h] + training_step_count rest) as ->.
    { destruct h; reflexivity. }
    destruct (outcome (run_hook h self)); cbn [final].
    + destruct (IH (final (run_hook h self))) as (Hs' & Hb' & Hm' & Hp' & Hl').
      split; [congruence|]. split; [congruence|]. split; [|split].
      * intros Hnot. apply not_elem_of_cons in Hnot as [Hne Hrest].
        rewrite (Hm' Hrest). apply Hm. congruence.
      * by etrans.
      * lia.
    + split; [done|]. split; [done|]. split; [|split]; [|done|lia].
      intros Hnot. apply not_elem_of_cons in Hnot as [Hne _].
      apply Hm. congruence.
Qed.

(** X1. When the constructor of [DFMModel] is called, [super().__init__]
    has returned, on the post-processor and evaluator of the caller, and the
    model receives every argument of the caller, or its default, under its
    own name, except [pca_level], which it receives as [n_comps]. *)
Theorem init_forwards_arguments args kwargs :
  DFMModel_call kwargs ∈ calls (Dfm_init args tt) →
  kw_backbone kwargs = default "resnet50" (arg_backbone args) ∧
  kw_pre_trained kwargs = default true (arg_pre_trained args) ∧
  kw_layer kwargs = default "layer3" (arg_layer args) ∧
  kw_pooling_kernel_size kwargs = default 4%Z (arg_pooling_kernel_size args) ∧
  kw_n_comps kwargs = default pca_level_default (arg_pca_level args) ∧
  ∃ inherited,
    AnomalyModule_init (default None (arg_post_processor args))
                       (default (inr true) (arg_evaluator args)) = Ok inherited ∧
    calls (Dfm_init args tt) =
      [super_init_call (default None (arg_post_processor args))
                       (default (inr true) (arg_evaluator args));
       DFMModel_call kwargs] ∧
    ∀ self, outcome (Dfm_init args tt) = Ok self →
      base self = inherited ∧ DFMModel_init kwargs = Ok (model self).
Proof.
  rewrite Dfm_init_run. cbn zeta.
  destruct (AnomalyModule_init _ _) as [inherited|e0] eqn:Hsuper.
  - destruct (DFMModel_init _) as [m|e0] eqn:Hmodel; cbn; intros Hin;
      (apply elem_of_cons in Hin as [Hin|Hin]; [discriminate|]);
      apply list_elem_of_singleton in Hin; injection Hin as ->;
      repeat split; exists inherited; repeat split.
    + injection H as <-. reflexivity.
    + injection H as <-. exact Hmodel.
    + discriminate.
    + discriminate.
  - cbn. intros Hin. apply list_elem_of_singleton in Hin. discriminate.
Qed.

(** X2. [fit] does not use up the embeddings.  When the collected
    embeddings stack, they are still there after [fit], whether
    [self.model.fit] returned or raised, and a second [fit] stacks the same
    list and hands the same tensor to [self.model.fit], on the model the
    first call left. *)
Theorem refit_uses_same_embeddings self stacked :
  torch_vstack (embeddings self) = Ok stacked →
  let once := final (fit self) in
  embeddings once = embeddings self ∧
  model once = (DFMModel_fit (model self) stacked).2 ∧
  calls (fit once) = calls (fit self) ∧
  model (final (fit once)) = (DFMModel_fit (model once) stacked).2 ∧
  outcome (fit once) = (DFMModel_fit (model once) stacked).1.
Proof.
  intros Hstack. cbn zeta.
  assert (final (fit self)
          = set_model (DFMModel_fit (model self) stacked).2 self) as Honce.
  { rewrite fit_run, Hstack. reflexivity. }
  rewrite Honce. split; [reflexivity|]. split; [reflexivity|].
  rewrite !fit_run. cbn [embeddings set_model]. rewrite Hstack.
  repeat split.
Qed.

(** X3. The embeddings are never cleared: after training steps, a [fit]
    that returns, further training steps and a second [fit], the second
    stacking receives the embeddings of both rounds, those of the first
    round first. *)
Theorem embeddings_accumulate_across_fits
    self batches1 features1 stacked1 batches2 features2 :
  Forall2 (fun b f => get_features (model self) (image b) = Ok f)
          batches1 features1 →
  torch_vstack (embeddings self ++ (squeeze <$> features1)) = Ok stacked1 →
  (DFMModel_fit (model self) stacked1).1 = Ok tt →
  Forall2 (fun b f =>
             get_features (DFMModel_fit (model self) stacked1).2 (image b) = Ok f)
          batches2 features2 →
  let all := embeddings self ++ (squeeze <$> features1) ++ (squeeze <$> features2) in
  let r := (training_steps batches1;; fit;;
            training_steps batches2;; fit) self in
  embeddings (final r) = all ∧
  calls r =
    (get_features_call ∘ image <$> batches1) ++
    [logger_info "Aggregating the embedding extracted from the training set.";
     vstack_call (embeddings self ++ (squeeze <$> features1));
     logger_info "Fitting a PCA and a Gaussian model to dataset.";
     model_fit_call stacked1] ++
    (get_features_call ∘ image <$> batches2) ++
    [logger_info "Aggregating the embedding extracted from the training set.";
     vstack_call all] ++
    match torch_vstack all with
    | Ok stacked2 =>
        [logger_info "Fitting a PCA and a Gaussian model to dataset.";
         model_fit_call stacked2]
    | Err _ => []
    end.
Proof.
  intros Hall1 Hstack Hfit Hall2. cbn zeta.
  rewrite bind_run, (training_steps_run _ _ _ Hall1). cbn [outcome final calls].
  rewrite bind_run, fit_run. cbn [embeddings model with_embeddings].
  rewrite Hstack. cbn [outcome final calls]. rewrite Hfit.
  rewrite bind_run.
  rewrite (training_steps_run batches2 _ features2) by exact Hall2.
  cbn [outcome final calls]. rewrite fit_run.
  cbn [embeddings model with_embeddings set_model]. rewrite <- app_assoc.
  destruct (torch_vstack (embeddings self ++ (squeeze <$> features1)
                                          ++ (squeeze <$> features2)));
    cbn [outcome final calls embeddings set_model with_embeddings];
    (split; [reflexivity|]); rewrite <- ?app_assoc; reflexivity.
Qed.

(** X6. Scoring reads the model only, and training steps never change the
    model: a validation step after any number of training steps, also of
    failed ones, makes the same calls and ends the same way as before them.
    In turn a validation step does not change what a later [fit] or training
    step does. *)
Theorem validation_step_independent batch self :
  (∀ batches,
     let trained := final (training_steps batches self) in
     calls (validation_step batch trained) = calls (validation_step batch self) ∧
     outcome (validation_step batch trained)
       = outcome (validation_step batch self)) ∧
  fit (final (validation_step batch self)) = fit self ∧
  (∀ other, training_step other (final (validation_step batch self))
            = training_step other self).
Proof.
  assert (final (validation_step batch self) = self) as Hsame.
  { rewrite validation_step_run.
    destruct (DFMModel_forward (model self) (image batch)); reflexivity. }
  split; [|split].
  - intros batches. cbn zeta. rewrite !validation_step_run.
    rewrite training_steps_model.
    destruct (DFMModel_forward (model self) (image batch)); split; reflexivity.
  - rewrite Hsame. reflexivity.
  - intros other. rewrite Hsame. reflexivity.
Qed.

(** X7. A second pass over the same batches extracts the same features,
    the model being untouched by the first, and appends them again: the
    embeddings then hold every batch twice. *)
Theorem second_epoch_duplicates_embeddings self batches features :
  Forall2 (fun b f => get_features (model self) (image b) = Ok f)
          batches features →
  training_steps (batches ++ batches) self =
  mkRun (get_features_call ∘ image <$> (batches ++ batches))
        (with_embeddings
           (embeddings self ++ (squeeze <$> features) ++ (squeeze <$> features))
           self)
        (Ok tt).
Proof.
  intros Hall.
  rewrite (training_steps_run _ _ (features ++ features))
    by (apply Forall2_app; exact Hall).
  rewrite !fmap_app. reflexivity.
Qed.

End Lifecycle.

(** * The hooks in sequence on the reference implementation *)

Module LifecycleExamples.
Import Reference Examples.

Definition default_kwargs : DFMModelKwargs :=
  mkDFMModelKwargs "resnet50" true "layer3" 4 pca_level_default "fre".

Definition embedding1 : tensor := mkTensor [3] [1; 2; 3]%Z.
Definition embedding2 : tensor := mkTensor [3] [4; 5; 6]%Z.

(** The constructor without arguments: the model is built on the defaults,
    with 0.97 as [n_comps]. *)
Lemma init_forwards_arguments_example :
  DFMModel_call default_kwargs ∈ calls (Dfm_init (C := collaborators) no_args tt) ∧
  kw_backbone default_kwargs = "resnet50" ∧
  kw_pre_trained default_kwargs = true ∧
  kw_layer default_kwargs = "layer3" ∧
  kw_pooling_kernel_size default_kwargs = 4%Z ∧
  kw_n_comps default_kwargs = pca_level_default ∧
  ∃ inherited,
    AnomalyModule_init (Collaborators := collaborators) None (inr true)
      = Ok inherited ∧
    calls (Dfm_init (C := collaborators) no_args tt) =
      [super_init_call None (inr true); DFMModel_call default_kwargs] ∧
    ∀ self, outcome (Dfm_init (C := collaborators) no_args tt) = Ok self →
      base self = inherited ∧
      DFMModel_init (Collaborators := collaborators) default_kwargs
        = Ok (model self).
Proof.
  assert (DFMModel_call default_kwargs
            ∈ calls (Dfm_init (C := collaborators) no_args tt)) as Hin.
  { apply list_elem_of_further, list_elem_of_here. }
  split; [exact Hin|].
  exact (init_forwards_arguments no_args default_kwargs Hin).
Defined.

(** A second [fit] on the two embeddings. *)
Lemma refit_uses_same_embeddings_example :
  torch_vstack (Collaborators := collaborators) (embeddings trained) = Ok stacked ∧
  embeddings (final (fit trained)) = embeddings trained ∧
  model (final (fit trained)) = model fitted ∧
  calls (fit (final (fit trained))) = calls (fit trained) ∧
  model (final (fit (final (fit trained)))) = model fitted ∧
  outcome (fit (final (fit trained))) = Ok tt.
Proof.
  split; [reflexivity|].
  exact (refit_uses_same_embeddings trained stacked eq_refl).
Defined.

(** One training step and a [fit], twice: the second stacking sees both
    embeddings. *)
Lemma embeddings_accumulate_across_fits_example :
  Forall2 (fun b f => get_features (Collaborators := collaborators)
                        (model fresh) (image b) = Ok f)
          [batch1] [features1] ∧
  torch_vstack (Collaborators := collaborators) [embedding1]
    = Ok (mkTensor [1; 3] [1; 2; 3]%Z) ∧
  (DFMModel_fit (Collaborators := collaborators)
     (model fresh) (mkTensor [1; 3] [1; 2; 3]%Z)).1 = Ok tt ∧
  Forall2 (fun b f => get_features (Collaborators := collaborators)
                        (mkModel default_kwargs (Some (mkTensor [1; 3] [1; 2; 3]%Z)))
                        (image b) = Ok f)
          [batch2] [features2] ∧
  embeddings (final ((training_steps (C := collaborators) [batch1];; fit;;
                      training_steps [batch2];; fit) fresh))
    = [embedding1; embedding2] ∧
  calls ((training_steps (C := collaborators) [batch1];; fit;;
          training_steps [batch2];; fit) fresh) =
    [get_features_call image1;
     logger_info "Aggregating the embedding extracted from the training set.";
     vstack_call [embedding1];
     logger_info "Fitting a PCA and a Gaussian model to dataset.";
     model_fit_call (mkTensor [1; 3] [1; 2; 3]%Z);
     get_features_call image2;
     logger_info "Aggregating the embedding extracted from the training set.";
     vstack_call [embedding1; embedding2];
     logger_info "Fitting a PCA and a Gaussian model to dataset.";
     model_fit_call stacked].
Proof.
  assert (Forall2 (fun b f => get_features (Collaborators := collaborators)
                                (model fresh) (image b) = Ok f)
                  [batch1] [features1]) as Hall1 by (repeat constructor).
  assert (Forall2 (fun b f => get_features (Collaborators := collaborators)
                                (mkModel default_kwargs
                                         (Some (mkTensor [1; 3] [1; 2; 3]%Z)))
                                (image b) = Ok f)
                  [batch2] [features2]) as Hall2 by (repeat constructor).
  split; [exact Hall1|]. split; [reflexivity|]. split; [reflexivity|].
  split; [exact Hall2|].
  exact (embeddings_accumulate_across_fits fresh [batch1] [features1]
           (mkTensor [1; 3] [1; 2; 3]%Z) [batch2] [features2]
           Hall1 eq_refl eq_refl Hall2).
Defined.

(** Two passes over the two batches. *)
Lemma second_epoch_duplicates_embeddings_example :
  Forall2 (fun b f => get_features (Collaborators := collaborators)
                        (model fresh) (image b) = Ok f)
          [batch1; batch2] [features1; features2] ∧
  training_steps (C := collaborators) [batch1; batch2; batch1; batch2] fresh =
  mkRun [get_features_call image1; get_features_call image2;
         get_features_call image1; get_features_call image2]
        (with_embeddings [embedding1; embedding2; embedding1; embedding2] fresh)
        (Ok tt).
Proof.
  assert (Forall2 (fun b f => get_features (Collaborators := collaborators)
                                (model fresh) (image b) = Ok f)
                  [batch1; batch2] [features1; features2]) as Hall
    by (repeat constructor).
  split; [exact Hall|].
  exact (second_epoch_duplicates_embeddings fresh [batch1; batch2]
           [features1; features2] Hall).
Defined.

(** A sequence with a failing validation step in front: the hooks behind
    it do not run. *)
Example hooks_stop_at_exception :
  run_hooks (C := collaborators)
    [TrainingStep batch1; ValidationStep batch1; TrainingStep batch2; Fit] fresh =
  mkRun [get_features_call image1; forward_call image1]
        (with_embeddings [embedding1] fresh)
        (Err "the model is not fitted").
Proof. reflexivity. Qed.

End LifecycleExamples.
